(** * pytango-SignalRecoveryDSP7265: the attribute adapter of [pytango_DSP7265.py]

    A shallow embedding of the Tango device class [DSP7265] and of the few
    numpy, Python and Tango operations its attribute methods rely on,
    followed by the properties of the adapter layer.

    Conventions.
    - A Python float (and a numpy float64) is a binary64 value: [float] of
      [PrimFloat], with Python's [==] as [PrimFloat.eqb], [<] as [ltb].
    - A Python int is a [Z]; [float_of_int] is the conversion Python and
      numpy apply when an int meets a float.
    - A numpy 1-D array is a [list]; shapes are lengths.
    - A method that may raise returns a [result]; [None] is [None]. *)

From Stdlib Require Import Strings.String.
From Stdlib Require Import ZArith List Bool Lia.
From Stdlib Require Import Floats Uint63.
Import ListNotations.

Set Warnings "-inexact-float".

Local Open Scope Z_scope.

(** ** Exceptions and the result monad *)

(** [IndexError]: Python list indexing out of range.  [ValueError]: numpy
    operands that cannot be broadcast together.  [WAttrOutsideLimit]: the
    Tango server's refusal (API_WAttrOutsideLimit) of a value written to an
    attribute: a float below [min_value], above [max_value] or not finite
    (the spec's OutOfBounds), or an enumeration value that is negative or
    beyond the last label (the spec's IndexOutOfRange). *)
Inductive exn : Type :=
| IndexError
| ValueError
| WAttrOutsideLimit.

Inductive result (A : Type) : Type :=
| Ok (a : A)
| Raise (e : exn).

Arguments Ok {A} a.
Arguments Raise {A} e.

Definition bind {A B : Type} (r : result A) (k : A -> result B) : result B :=
  match r with
  | Ok a => k a
  | Raise e => Raise e
  end.

Notation "x <- r ;; k" := (bind r (fun x => k))
  (at level 61, r at next level, right associativity).

(** ** Python and numpy primitives *)

(** [float(z)] for a Python int; exact for every [|z| < 2^53]. *)
Definition float_of_int (z : Z) : float :=
  if z <? 0 then PrimFloat.opp (PrimFloat.of_uint63 (Uint63.of_Z (- z)))
  else PrimFloat.of_uint63 (Uint63.of_Z z).

(** [l[i]] on a Python list: a negative index counts from the end. *)
Definition py_index {A : Type} (l : list A) (i : Z) : result A :=
  let n := Z.of_nat (length l) in
  let k := if i <? 0 then i + n else i in
  if (0 <=? k) && (k <? n) then
    match nth_error l (Z.to_nat k) with
    | Some a => Ok a
    | None => Raise IndexError
    end
  else Raise IndexError.

(** [np.ones(n)] and [np.arange(n)]. *)
Definition np_ones (n : nat) : list float := repeat 1%float n.

Definition np_arange (n : nat) : list Z := map Z.of_nat (seq 0 n).

(** [array * scalar], elementwise. *)
Definition np_scale (a : list float) (v : float) : list float :=
  map (fun o => (o * v)%float) a.

(** [scalar * array], elementwise. *)
Definition np_lscale (v : float) (a : list float) : list float :=
  map (fun o => (v * o)%float) a.

Fixpoint zip_with {A B C : Type} (f : A -> B -> C) (a : list A) (b : list B)
  : list C :=
  match a, b with
  | x :: a', y :: b' => f x y :: zip_with f a' b'
  | _, _ => []
  end.

(** A binary elementwise operation on two 1-D arrays, with numpy's
    broadcasting: equal shapes go elementwise, a shape of 1 is stretched,
    anything else cannot be broadcast and raises [ValueError] (for [==],
    numpy before 1.25 warned and answered a scalar [False] instead; the
    properties below only concern operands of one shape). *)
Definition broadcast2 {A B C : Type} (f : A -> B -> C)
    (a : list A) (b : list B) : result (list C) :=
  if Nat.eqb (length a) (length b) then Ok (zip_with f a b)
  else
    match a, b with
    | _, [y] => Ok (map (fun x => f x y) a)
    | [x], _ => Ok (map (fun y => f x y) b)
    | _, _ => Raise ValueError
    end.

Definition np_sum (a : list Z) : Z := fold_right Z.add 0 a.

(** [int(np.sum(np.arange(n) * (arr == table)))], the expression every
    numeric enumerated read ends with. *)
Definition index_of_matches (n : nat) (arr table : list float) : result Z :=
  mask <- broadcast2 PrimFloat.eqb arr table ;;
  prods <- broadcast2 (fun (i : Z) (b : bool) => i * Z.b2z b) (np_arange n) mask ;;
  Ok (np_sum prods).

(** ** The instrument driver

    [pymeasure.instruments.signalrecovery.DSP7265] is imported, not part of
    this repository.  The adapter only uses the names below: the class
    tables, the measured channels, and one property (a getter and a setter)
    per setting.  [dev] is whatever state lives behind the link. *)
Record Instrument : Type := {
  dev : Type;
  TIME_CONSTANTS : list float;
  SENSITIVITIES : list float;
  REFERENCES : list string;
  x : dev -> float;
  y : dev -> float;
  mag : dev -> float;
  phase : dev -> float;
  time_constant : dev -> float;
  set_time_constant : float -> dev -> dev;
  sensitivity : dev -> float;
  set_sensitivity : float -> dev -> dev;
  gain : dev -> list float;
  set_gain : Z -> dev -> dev;
  slope : dev -> float;
  set_slope : Z -> dev -> dev;
  frequency : dev -> float;
  set_frequency : float -> dev -> dev;
  reference : dev -> string;
  set_reference : string -> dev -> dev;
  coupling : dev -> float;
  set_coupling : Z -> dev -> dev;
  ground : dev -> float;
  set_ground : Z -> dev -> dev
}.

(** A link that reports back what was last set.  The gain property is the
    one that is not symmetric: it is set in dB and reported as a sequence
    holding the instrument's ACGAIN code, the gain in steps of 10 dB, which
    is why [read_gain] takes element 0 and multiplies by 10. *)
Record Faithful (I : Instrument) : Prop := {
  time_constant_kept :
    forall v d, time_constant I (set_time_constant I v d) = v;
  sensitivity_kept :
    forall v d, sensitivity I (set_sensitivity I v d) = v;
  gain_kept :
    forall z d, gain I (set_gain I z d) = [float_of_int (Z.quot z 10)];
  slope_kept :
    forall z d, slope I (set_slope I z d) = float_of_int z;
  frequency_kept :
    forall v d, frequency I (set_frequency I v d) = v;
  reference_kept :
    forall s d, reference I (set_reference I s d) = s;
  coupling_kept :
    forall z d, coupling I (set_coupling I z d) = float_of_int z;
  ground_kept :
    forall z d, ground I (set_ground I z d) = float_of_int z
}.

(** ** The device class *)

Section Device.

Context {I : Instrument}.

(** The instance attributes [init_device] creates. *)
Record DSP7265 : Type := {
  device : dev I;
  SLOPES : list Z;
  GAINS : list Z
}.

Definition init_device (d : dev I) : DSP7265 :=
  {| device := d;
     SLOPES := [6; 12; 18; 24];
     GAINS := [0; 10; 20; 30; 40; 50; 60; 70; 80; 90] |}.

(** [self.device.<property> = ...] leaves the instance attributes alone. *)
Definition with_device (self : DSP7265) (d : dev I) : DSP7265 :=
  {| device := d; SLOPES := SLOPES self; GAINS := GAINS self |}.

(** *** Read methods *)

Definition read_x (self : DSP7265) : float :=
  (float_of_int (10 ^ 9) * x I (device self))%float.

Definition read_y (self : DSP7265) : float :=
  (float_of_int (10 ^ 9) * y I (device self))%float.

Definition read_R (self : DSP7265) : float :=
  (float_of_int (10 ^ 9) * mag I (device self))%float.

Definition read_Theta (self : DSP7265) : float := phase I (device self).

Definition read_timeconstant (self : DSP7265) : result Z :=
  let tc := np_scale (np_ones 29) (time_constant I (device self)) in
  index_of_matches 29 tc (TIME_CONSTANTS I).

Definition read_sensitivity (self : DSP7265) : result Z :=
  let sens := np_scale (np_ones 28) (sensitivity I (device self)) in
  index_of_matches 28 sens (SENSITIVITIES I).

Definition read_gain (self : DSP7265) : result Z :=
  g0 <- py_index (gain I (device self)) 0 ;;
  let g := np_scale (np_lscale (float_of_int 10) (np_ones 10)) g0 in
  index_of_matches 10 g (map float_of_int (GAINS self)).

Definition read_slope (self : DSP7265) : result Z :=
  let sl := np_scale (np_ones 4) (slope I (device self)) in
  index_of_matches 4 sl (map float_of_int (SLOPES self)).

Definition read_frequency (self : DSP7265) : float :=
  frequency I (device self).

(** Falling off the end of the [if]/[elif] chain returns [None]. *)
Definition read_reference (self : DSP7265) : option Z :=
  let ref := reference I (device self) in
  if String.eqb ref "internal" then Some 0
  else if String.eqb ref "external rear" then Some 1
  else if String.eqb ref "external front" then Some 2
  else None.

Definition read_ACcoupling (self : DSP7265) : bool :=
  let cou := coupling I (device self) in
  if PrimFloat.eqb cou 1%float then true else false.

Definition read_ground (self : DSP7265) : bool :=
  let cou := ground I (device self) in
  if PrimFloat.eqb cou 1%float then true else false.

(** *** Write methods *)

Definition write_timeconstant (self : DSP7265) (value : Z) : result DSP7265 :=
  v <- py_index (TIME_CONSTANTS I) value ;;
  Ok (with_device self (set_time_constant I v (device self))).

Definition write_sensitivity (self : DSP7265) (value : Z) : result DSP7265 :=
  v <- py_index (SENSITIVITIES I) value ;;
  Ok (with_device self (set_sensitivity I v (device self))).

Definition write_gain (self : DSP7265) (value : Z) : result DSP7265 :=
  v <- py_index (GAINS self) value ;;
  Ok (with_device self (set_gain I v (device self))).

Definition write_slope (self : DSP7265) (value : Z) : result DSP7265 :=
  v <- py_index (SLOPES self) value ;;
  Ok (with_device self (set_slope I v (device self))).

Definition write_frequency (self : DSP7265) (value : float) : DSP7265 :=
  with_device self (set_frequency I value (device self)).

Definition write_reference (self : DSP7265) (value : Z) : result DSP7265 :=
  v <- py_index (REFERENCES I) value ;;
  Ok (with_device self (set_reference I v (device self))).

Definition write_ACcoupling (self : DSP7265) (value : bool) : DSP7265 :=
  if value then with_device self (set_coupling I 1 (device self))
  else with_device self (set_coupling I 0 (device self)).

Definition write_ground (self : DSP7265) (value : bool) : DSP7265 :=
  if value then with_device self (set_ground I 1 (device self))
  else with_device self (set_ground I 0 (device self)).

(** *** What the attribute declarations make the server check

    The write methods check nothing themselves; a client's write reaches
    them through the Tango server, which first holds the value against the
    attribute's declaration.

    [frequency = attribute(dtype = 'DevFloat', ..., min_value = 0.001,
    max_value = 250000)].  A [DevFloat] is a binary32 number: the value a
    client writes is rounded to binary32 on its way to the server, the
    limits are held as binary32 numbers, and the server refuses a value
    that is not finite, is below the one limit or is above the other.  What
    a read method returns is rounded to binary32 in the same way. *)
Record limits : Type := {
  min_value : float;
  max_value : float
}.

Definition frequency_attr : limits :=
  {| min_value := 0.001%float; max_value := float_of_int 250000 |}.

(** Rounding to binary32 (24 bits of precision, exponents up to 128), to
    nearest with ties to even; the result is held in a binary64. *)
Definition round32 (f : spec_float) : spec_float :=
  match f with
  | S754_finite s m e => binary_round 24 128 s m e
  | _ => f
  end.

Definition to_DevFloat (v : float) : float := SF2Prim (round32 (Prim2SF v)).

(** A NaN or an infinity. *)
Definition not_finite (v : float) : bool :=
  match Prim2SF v with
  | S754_nan | S754_infinity _ => true
  | _ => false
  end.

(** The server's check of a written [DevFloat] against declared limits. *)
Definition check_limits (a : limits) (value : float) : result float :=
  if not_finite value then Raise WAttrOutsideLimit
  else if PrimFloat.ltb value (to_DevFloat (min_value a))
  then Raise WAttrOutsideLimit
  else if PrimFloat.ltb (to_DevFloat (max_value a)) value
  then Raise WAttrOutsideLimit
  else Ok value.

(** A write of the attribute [frequency], as a client issues it with a
    Python float. *)
Definition write_attribute_frequency (self : DSP7265) (value : float)
  : result DSP7265 :=
  v <- check_limits frequency_attr (to_DevFloat value) ;;
  Ok (write_frequency self v).

(** A read of the attribute [frequency], as a client receives it. *)
Definition read_attribute_frequency (self : DSP7265) : float :=
  to_DevFloat (read_frequency self).

(** The [enum_labels] of the five [DevEnum] attributes.  The server
    refuses a written value that is negative or greater than the position
    of the last label. *)
Definition timeconstant_labels : list string :=
  ["10 us"; "20 us"; "40 us"; "80 us"; "160 us"; "320 us"; "640 us"; "5 ms";
   "10 ms"; "20 ms"; "50 ms"; "100 ms"; "200 ms"; "500 ms"; "1 s"; "2 s";
   "5 s"; "10 s"; "20 s"; "50 s"; "100 s"; "200 s"; "500 s"; "1 ks"; "2 ks";
   "5 ks"; "10 ks"; "20 ks"; "50 ks"]%string.

Definition sensitivity_labels : list string :=
  ["nan"; "2 nV"; "5 nV"; "10 nV"; "20 nV"; "50 nV"; "100 nV"; "200 nV";
   "500 nV"; "1 uV"; "2 uV"; "5 uV"; "10 uV"; "20 uV"; "50 uV"; "100 uV";
   "200 uV"; "500 uV"; "1 m"; "2 mV"; "5 mV"; "10 mV"; "20 mV"; "50 mV";
   "100 mV"; "200 mV"; "500 mV"; "1 V"]%string.

Definition gain_labels : list string :=
  ["0 db"; "10 db"; "20 db"; "30 db"; "40 db"; "50 db"; "60 db"; "70 db";
   "80 db"; "90 db"]%string.

Definition slope_labels : list string :=
  ["6 db/octave"; "12 db/octave"; "18 db/octave"; "24 db/octave"]%string.

Definition reference_labels : list string :=
  ["internal"; "external rear"; "external front"]%string.

Definition check_enum (enum_labels : list string) (value : Z) : result Z :=
  let max_val := Z.of_nat (length enum_labels) - 1 in
  if (value <? 0) || (max_val <? value) then Raise WAttrOutsideLimit
  else Ok value.

(** A write of each enumerated attribute, as a client issues it. *)
Definition write_attribute_timeconstant (self : DSP7265) (value : Z)
  : result DSP7265 :=
  v <- check_enum timeconstant_labels value ;; write_timeconstant self v.

Definition write_attribute_sensitivity (self : DSP7265) (value : Z)
  : result DSP7265 :=
  v <- check_enum sensitivity_labels value ;; write_sensitivity self v.

Definition write_attribute_gain (self : DSP7265) (value : Z)
  : result DSP7265 :=
  v <- check_enum gain_labels value ;; write_gain self v.

Definition write_attribute_slope (self : DSP7265) (value : Z)
  : result DSP7265 :=
  v <- check_enum slope_labels value ;; write_slope self v.

Definition write_attribute_reference (self : DSP7265) (value : Z)
  : result DSP7265 :=
  v <- check_enum reference_labels value ;; write_reference self v.

End Device.

Arguments DSP7265 I : clear implicits.

(** ** A bench instrument

    A register file behind the driver interface: every property reports the
    register its setter stored, the AC gain register holding the code in
    steps of 10 dB.  The class tables are parameters. *)
Record registers : Type := {
  r_x : float;
  r_y : float;
  r_mag : float;
  r_phase : float;
  r_time_constant : float;
  r_sensitivity : float;
  r_acgain : float;
  r_slope : float;
  r_frequency : float;
  r_reference : string;
  r_coupling : float;
  r_ground : float
}.

Definition bench (tcs sens : list float) (refs : list string) : Instrument :=
  {| dev := registers;
     TIME_CONSTANTS := tcs;
     SENSITIVITIES := sens;
     REFERENCES := refs;
     x := r_x;
     y := r_y;
     mag := r_mag;
     phase := r_phase;
     time_constant := r_time_constant;
     set_time_constant := fun v r =>
       {| r_x := r_x r; r_y := r_y r; r_mag := r_mag r; r_phase := r_phase r;
          r_time_constant := v; r_sensitivity := r_sensitivity r;
          r_acgain := r_acgain r; r_slope := r_slope r;
          r_frequency := r_frequency r; r_reference := r_reference r;
          r_coupling := r_coupling r; r_ground := r_ground r |};
     sensitivity := r_sensitivity;
     set_sensitivity := fun v r =>
       {| r_x := r_x r; r_y := r_y r; r_mag := r_mag r; r_phase := r_phase r;
          r_time_constant := r_time_constant r; r_sensitivity := v;
          r_acgain := r_acgain r; r_slope := r_slope r;
          r_frequency := r_frequency r; r_reference := r_reference r;
          r_coupling := r_coupling r; r_ground := r_ground r |};
     gain := fun r => [r_acgain r];
     set_gain := fun z r =>
       {| r_x := r_x r; r_y := r_y r; r_mag := r_mag r; r_phase := r_phase r;
          r_time_constant := r_time_constant r;
          r_sensitivity := r_sensitivity r;
          r_acgain := float_of_int (Z.quot z 10); r_slope := r_slope r;
          r_frequency := r_frequency r; r_reference := r_reference r;
          r_coupling := r_coupling r; r_ground := r_ground r |};
     slope := r_slope;
     set_slope := fun z r =>
       {| r_x := r_x r; r_y := r_y r; r_mag := r_mag r; r_phase := r_phase r;
          r_time_constant := r_time_constant r;
          r_sensitivity := r_sensitivity r;
          r_acgain := r_acgain r; r_slope := float_of_int z;
          r_frequency := r_frequency r; r_reference := r_reference r;
          r_coupling := r_coupling r; r_ground := r_ground r |};
     frequency := r_frequency;
     set_frequency := fun v r =>
       {| r_x := r_x r; r_y := r_y r; r_mag := r_mag r; r_phase := r_phase r;
          r_time_constant := r_time_constant r;
          r_sensitivity := r_sensitivity r;
          r_acgain := r_acgain r; r_slope := r_slope r;
          r_frequency := v; r_reference := r_reference r;
          r_coupling := r_coupling r; r_ground := r_ground r |};
     reference := r_reference;
     set_reference := fun s r =>
       {| r_x := r_x r; r_y := r_y r; r_mag := r_mag r; r_phase := r_phase r;
          r_time_constant := r_time_constant r;
          r_sensitivity := r_sensitivity r;
          r_acgain := r_acgain r; r_slope := r_slope r;
          r_frequency := r_frequency r; r_reference := s;
          r_coupling := r_coupling r; r_ground := r_ground r |};
     coupling := r_coupling;
     set_coupling := fun z r =>
       {| r_x := r_x r; r_y := r_y r; r_mag := r_mag r; r_phase := r_phase r;
          r_time_constant := r_time_constant r;
          r_sensitivity := r_sensitivity r;
          r_acgain := r_acgain r; r_slope := r_slope r;
          r_frequency := r_frequency r; r_reference := r_reference r;
          r_coupling := float_of_int z; r_ground := r_ground r |};
     ground := r_ground;
     set_ground := fun z r =>
       {| r_x := r_x r; r_y := r_y r; r_mag := r_mag r; r_phase := r_phase r;
          r_time_constant := r_time_constant r;
          r_sensitivity := r_sensitivity r;
          r_acgain := r_acgain r; r_slope := r_slope r;
          r_frequency := r_frequency r; r_reference := r_reference r;
          r_coupling := r_coupling r; r_ground := float_of_int z |} |}.

(** The settings the [enum_labels] of [timeconstant] name, in seconds. *)
Definition nominal_time_constants : list float :=
  [10e-6; 20e-6; 40e-6; 80e-6; 160e-6; 320e-6; 640e-6; 5e-3; 10e-3; 20e-3;
   50e-3; 100e-3; 200e-3; 500e-3; 1; 2; 5; 10; 20; 50; 100; 200;
   500; 1e3; 2e3; 5e3; 10e3; 20e3; 50e3]%float.

(** The settings the [enum_labels] of [sensitivity] name, in volts; the
    first label, 'nan', is a NaN. *)
Definition nominal_sensitivities : list float :=
  [nan; 2e-9; 5e-9; 10e-9; 20e-9; 50e-9; 100e-9; 200e-9; 500e-9;
   1e-6; 2e-6; 5e-6; 10e-6; 20e-6; 50e-6; 100e-6; 200e-6; 500e-6;
   1e-3; 2e-3; 5e-3; 10e-3; 20e-3; 50e-3; 100e-3; 200e-3; 500e-3; 1]%float.

(** The [enum_labels] of [reference]. *)
Definition nominal_references : list string :=
  ["internal"; "external rear"; "external front"]%string.

Definition nominal_bench : Instrument :=
  bench nominal_time_constants nominal_sensitivities nominal_references.

Definition idle : registers :=
  {| r_x := 0; r_y := 0; r_mag := 0; r_phase := 0;
     r_time_constant := 10e-6; r_sensitivity := 0; r_acgain := 0;
     r_slope := 6; r_frequency := 1000; r_reference := "internal";
     r_coupling := 0; r_ground := 0 |}.

(** ** What a raw value matches *)

(** The sum, counted from [k], of the positions whose candidate equals [u]. *)
Fixpoint matching_from (k : Z) (u : float) (table : list float) : Z :=
  match table with
  | [] => 0
  | c :: t => (if PrimFloat.eqb u c then k else 0) + matching_from (k + 1) u t
  end.

(** [u] equals no candidate. *)
Definition matches_none (u : float) (table : list float) : Prop :=
  forall c, In c table -> PrimFloat.eqb u c = false.

(** [u] equals the candidate at position [i] and no other. *)
Definition matches_only (u : float) (table : list float) (i : nat) : Prop :=
  forall j, (j < length table)%nat ->
    PrimFloat.eqb u (nth j table nan) = Nat.eqb j i.

(** Every candidate, read back through [np.ones(n) * raw], equals itself
    and no other candidate. *)
Definition distinguishable (table : list float) : Prop :=
  forall i, (i < length table)%nat ->
    matches_only (1 * nth i table nan)%float table i.

Definition distinguishableb (table : list float) : bool :=
  forallb (fun i =>
    forallb (fun j =>
      Bool.eqb (PrimFloat.eqb (1 * nth i table nan)%float (nth j table nan))
               (Nat.eqb j i))
      (seq 0 (length table)))
    (seq 0 (length table)).

(** Every candidate, read back through [np.ones(n) * raw], equals itself
    and no other candidate; the first candidate may instead equal none, not
    even itself (a NaN). *)
Definition reads_back (table : list float) : Prop :=
  forall i, (i < length table)%nat ->
    matches_only (1 * nth i table nan)%float table i
    \/ (i = 0%nat /\ matches_none (1 * nth i table nan)%float table).

Definition reads_backb (table : list float) : bool :=
  forallb (fun i =>
    forallb (fun j =>
      Bool.eqb (PrimFloat.eqb (1 * nth i table nan)%float (nth j table nan))
               (Nat.eqb j i))
      (seq 0 (length table))
    || (Nat.eqb i 0
        && forallb (fun c =>
             negb (PrimFloat.eqb (1 * nth i table nan)%float c)) table))
    (seq 0 (length table)).

(** ** Instrument states and tables used as concrete inputs *)

(** No setting on its table: a time constant of 15 us, a sensitivity of
    3 nV, the AC gain register halfway between the codes of 30 dB and 40 dB,
    a slope of 9 dB/octave. *)
Definition off_table : registers :=
  {| r_x := 0; r_y := 0; r_mag := 0; r_phase := 0;
     r_time_constant := 15e-6; r_sensitivity := 3e-9; r_acgain := 3.5;
     r_slope := 9; r_frequency := 1000; r_reference := "internal";
     r_coupling := 0; r_ground := 0 |}.

(** Every setting on its table: 5 ms (position 7), 1 uV (position 9),
    30 dB (code 3), 12 dB/octave (position 1). *)
Definition settled : registers :=
  {| r_x := 0; r_y := 0; r_mag := 0; r_phase := 0;
     r_time_constant := 5e-3; r_sensitivity := 1e-6; r_acgain := 3;
     r_slope := 12; r_frequency := 1000; r_reference := "external rear";
     r_coupling := 1; r_ground := 0 |}.

(** A coupling flag and a ground flag that are neither 0.0 nor 1.0. *)
Definition half_way : registers :=
  {| r_x := 0; r_y := 0; r_mag := 0; r_phase := 0;
     r_time_constant := 10e-6; r_sensitivity := 0; r_acgain := 0;
     r_slope := 6; r_frequency := 1000; r_reference := "internal";
     r_coupling := 0.5; r_ground := 0.5 |}.

(** The instrument reporting the reference mode [s]. *)
Definition referring (s : string) : registers :=
  {| r_x := 0; r_y := 0; r_mag := 0; r_phase := 0;
     r_time_constant := 10e-6; r_sensitivity := 0; r_acgain := 0;
     r_slope := 6; r_frequency := 1000; r_reference := s;
     r_coupling := 0; r_ground := 0 |}.

(** A slope reading one part in ten million above 12 dB/octave. *)
Definition drifted_slope : registers :=
  {| r_x := 0; r_y := 0; r_mag := 0; r_phase := 0;
     r_time_constant := 10e-6; r_sensitivity := 0; r_acgain := 0;
     r_slope := 12.000001; r_frequency := 1000; r_reference := "internal";
     r_coupling := 0; r_ground := 0 |}.

(** A magnitude of one nanovolt. *)
Definition one_nanovolt : registers :=
  {| r_x := 0; r_y := 0; r_mag := 1e-9; r_phase := 0;
     r_time_constant := 10e-6; r_sensitivity := 0; r_acgain := 0;
     r_slope := 6; r_frequency := 1000; r_reference := "internal";
     r_coupling := 0; r_ground := 0 |}.

(** ** What a write of an enumerated attribute does with an index

    [write i] is refused for every index outside the table, negative ones
    included, and otherwise behaves as [commit table[i]]. *)
Definition writes_within {A S : Type} (table : list A)
    (write : Z -> result S) (commit : A -> S) : Prop :=
  forall i : Z,
    (i < 0 \/ Z.of_nat (length table) <= i ->
     write i = Raise WAttrOutsideLimit)
    /\ (forall c, 0 <= i -> nth_error table (Z.to_nat i) = Some c ->
        write i = Ok (commit c)).

(** ** Tables without repeated candidates *)

(** A float that is finite and not a zero: the only float [==] to it is
    itself. *)
Definition is_finite (c : float) : bool :=
  match Prim2SF c with
  | S754_finite _ _ _ => true
  | _ => false
  end.

(** Every candidate after the first is a finite nonzero float and differs
    from all the candidates before it. *)
Fixpoint separatedb (table : list float) : bool :=
  match table with
  | [] => true
  | c :: t =>
      forallb (fun c' => is_finite c' && negb (PrimFloat.eqb c' c)) t
      && separatedb t
  end.

(** ** Write requests

    The write methods, one request per writable attribute, as they are
    run on the device object.  The server hands a method only the requests
    that passed its own checks (an enumeration value within the labels, a
    frequency within the limits), so the sequences of requests a client can
    get through are among the sequences taken here.  Each method evaluates
    the value it hands to the driver before it touches the driver, so a
    request that raises leaves the object as it was. *)
Inductive request : Type :=
| Write_timeconstant (value : Z)
| Write_sensitivity (value : Z)
| Write_gain (value : Z)
| Write_slope (value : Z)
| Write_frequency (value : float)
| Write_reference (value : Z)
| Write_ACcoupling (value : bool)
| Write_ground (value : bool).

Definition write {I : Instrument} (self : DSP7265 I) (r : request)
  : result (DSP7265 I) :=
  match r with
  | Write_timeconstant value => write_timeconstant self value
  | Write_sensitivity value => write_sensitivity self value
  | Write_gain value => write_gain self value
  | Write_slope value => write_slope self value
  | Write_frequency value => Ok (write_frequency self value)
  | Write_reference value => write_reference self value
  | Write_ACcoupling value => Ok (write_ACcoupling self value)
  | Write_ground value => Ok (write_ground self value)
  end.

Definition serve {I : Instrument} (self : DSP7265 I) (r : request)
  : DSP7265 I :=
  match write self r with
  | Ok self' => self'
  | Raise _ => self
  end.

Definition serve_all {I : Instrument} (rs : list request) (self : DSP7265 I)
  : DSP7265 I :=
  fold_left serve rs self.

(** * Properties *)

(** ** The result monad and the numpy primitives *)

Lemma bind_Ok {A B : Type} (a : A) (k : A -> result B) :
  bind (Ok a) k = k a.
Proof. reflexivity. Qed.

Lemma broadcast2_same_shape {A B C : Type} (f : A -> B -> C) a b :
  length a = length b -> broadcast2 f a b = Ok (zip_with f a b).
Proof.
  intros E. unfold broadcast2. now rewrite E, Nat.eqb_refl.
Qed.

Lemma zip_with_repeat_eqb (u : float) (table : list float) :
  zip_with PrimFloat.eqb (repeat u (length table)) table
  = map (PrimFloat.eqb u) table.
Proof.
  induction table as [|c t IH]; simpl; [reflexivity | now rewrite IH].
Qed.

Lemma np_arange_length n : length (np_arange n) = n.
Proof. unfold np_arange. now rewrite length_map, length_seq. Qed.

Lemma np_scale_ones n v : np_scale (np_ones n) v = repeat (1 * v)%float n.
Proof. exact (map_repeat 1%float n (fun o => (o * v)%float)). Qed.

Lemma np_lscale_ones n v : np_lscale v (np_ones n) = repeat (v * 1)%float n.
Proof. exact (map_repeat 1%float n (fun o => (v * o)%float)). Qed.

Lemma np_scale_repeat n w v :
  np_scale (repeat w n) v = repeat (w * v)%float n.
Proof. exact (map_repeat w n (fun o => (o * v)%float)). Qed.

Lemma masked_sum (u : float) (table : list float) (k : nat) :
  np_sum (zip_with (fun (i : Z) (b : bool) => i * Z.b2z b)
            (map Z.of_nat (seq k (length table)))
            (map (PrimFloat.eqb u) table))
  = matching_from (Z.of_nat k) u table.
Proof.
  revert k. induction table as [|c t IH]; intros k; simpl; [reflexivity|].
  rewrite IH. replace (Z.of_nat (S k)) with (Z.of_nat k + 1) by lia.
  destruct (PrimFloat.eqb u c); simpl; lia.
Qed.

(** On a constant array and a table of the array's length, the read
    expression is the sum of the matching positions. *)
Lemma index_of_matches_const (n : nat) (u : float) (table : list float) :
  length table = n ->
  index_of_matches n (repeat u n) table = Ok (matching_from 0 u table).
Proof.
  intros <-. unfold index_of_matches.
  rewrite broadcast2_same_shape by now rewrite repeat_length.
  rewrite bind_Ok, zip_with_repeat_eqb.
  rewrite broadcast2_same_shape
    by now rewrite np_arange_length, length_map.
  rewrite bind_Ok. unfold np_arange. now rewrite masked_sum.
Qed.

(** ** Sums of matching positions *)

Lemma matching_from_none u table k :
  matches_none u table -> matching_from k u table = 0.
Proof.
  revert k. induction table as [|c t IH]; intros k H; simpl; [reflexivity|].
  rewrite (H c) by now left.
  rewrite IH; [reflexivity|]. intros c' Hc'. apply H. now right.
Qed.

Lemma matches_only_tail u c t i :
  matches_only u (c :: t) (S i) -> matches_only u t i.
Proof. intros H j Hj. apply (H (S j)). simpl. lia. Qed.

Lemma matches_only_head u c t :
  matches_only u (c :: t) 0 -> matches_none u t.
Proof.
  intros H c' Hc'. destruct (In_nth _ _ nan Hc') as (j & Hj & <-).
  apply (H (S j)). simpl. lia.
Qed.

Lemma matches_head u c t i :
  matches_only u (c :: t) i -> PrimFloat.eqb u c = Nat.eqb 0 i.
Proof. intros H. apply (H 0%nat). simpl. lia. Qed.

Lemma matching_from_only u table i k :
  (i < length table)%nat -> matches_only u table i ->
  matching_from k u table = k + Z.of_nat i.
Proof.
  revert i k. induction table as [|c t IH]; intros i k Hi H; simpl in *.
  - lia.
  - rewrite (matches_head _ _ _ _ H). destruct i as [|i]; simpl.
    + rewrite (matching_from_none u t (k + 1) (matches_only_head _ _ _ H)).
      lia.
    + rewrite (IH i (k + 1)); [lia | lia | exact (matches_only_tail _ _ _ _ H)].
Qed.

Lemma distinguishableb_sound table :
  distinguishableb table = true -> distinguishable table.
Proof.
  unfold distinguishableb, distinguishable, matches_only.
  intros H i Hi j Hj. rewrite forallb_forall in H.
  specialize (H i (proj2 (in_seq _ _ _) (conj (Nat.le_0_l i) Hi))).
  rewrite forallb_forall in H.
  specialize (H j (proj2 (in_seq _ _ _) (conj (Nat.le_0_l j) Hj))).
  now apply eqb_prop.
Qed.

Lemma reads_backb_sound table :
  reads_backb table = true -> reads_back table.
Proof.
  unfold reads_backb, reads_back. intros H i Hi.
  rewrite forallb_forall in H.
  specialize (H i (proj2 (in_seq _ _ _) (conj (Nat.le_0_l i) Hi))).
  apply orb_prop in H. destruct H as [H | H].
  - left. intros j Hj. rewrite forallb_forall in H.
    specialize (H j (proj2 (in_seq _ _ _) (conj (Nat.le_0_l j) Hj))).
    now apply eqb_prop.
  - right. apply andb_prop in H. destruct H as [H0 Hn].
    split; [now apply Nat.eqb_eq|]. intros c Hc.
    rewrite forallb_forall in Hn. apply negb_true_iff. now apply Hn.
Qed.

(** A candidate of such a table, read back, sums to its own position. *)
Lemma reads_back_sum table i :
  reads_back table -> (i < length table)%nat ->
  matching_from 0 (1 * nth i table nan)%float table = Z.of_nat i.
Proof.
  intros R Hi. destruct (R i Hi) as [Ho | [-> Hn]].
  - rewrite (matching_from_only _ _ i 0); [lia | exact Hi | exact Ho].
  - now rewrite matching_from_none.
Qed.

(** ** Float comparisons *)

Lemma SFcompare_antisym a b :
  SFcompare b a = option_map CompOpp (SFcompare a b).
Proof.
  destruct a as [s | s | | s m e], b as [s' | s' | | s' m' e']; simpl;
    try reflexivity;
    try (destruct s; reflexivity);
    try (destruct s'; reflexivity);
    try (destruct s, s'; reflexivity).
  destruct s, s'; simpl; try reflexivity;
    rewrite (Z.compare_antisym e e'); destruct (e ?= e'); simpl;
    try reflexivity;
    generalize (Pos.compare_cont_antisym m m' Eq); simpl; intros <-;
    now destruct (Pos.compare_cont Eq m m').
Qed.

(** [a <= v] excludes [v < a]. *)
Lemma leb_not_gt (a v : float) :
  (a <=? v)%float = true -> (v <? a)%float = false.
Proof.
  rewrite FloatAxioms.leb_spec, FloatAxioms.ltb_spec. unfold SFleb, SFltb.
  rewrite (SFcompare_antisym (Prim2SF a) (Prim2SF v)).
  destruct (SFcompare (Prim2SF a) (Prim2SF v)) as [[] |]; simpl; congruence.
Qed.

Lemma SFeqb_finite_eq f s m e :
  SFeqb f (S754_finite s m e) = true -> f = S754_finite s m e.
Proof.
  unfold SFeqb.
  destruct f as [s0 | s0 | | s0 m0 e0]; simpl;
    try discriminate; try (destruct s; discriminate);
    try (destruct s0; discriminate).
  destruct s0, s; simpl; try discriminate;
    destruct (Z.compare_spec e0 e) as [-> | _ | _]; try discriminate;
    fold (Pos.compare m0 m);
    destruct (Pos.compare_spec m0 m) as [-> | _ | _]; simpl;
    try discriminate; reflexivity.
Qed.

(** Python's [==] against 1.0 holds for the float 1.0 and no other. *)
Lemma eqb_one (v : float) : (v =? 1)%float = true <-> v = 1%float.
Proof.
  split.
  - rewrite FloatAxioms.eqb_spec. intros H. apply Prim2SF_inj.
    exact (SFeqb_finite_eq _ _ _ _ H).
  - intros ->. reflexivity.
Qed.

(** A float between two finite floats is finite. *)
Lemma between_finite_is_finite (lo hi w : float) :
  not_finite lo = false -> not_finite hi = false ->
  (lo <=? w)%float = true -> (w <=? hi)%float = true ->
  not_finite w = false.
Proof.
  intros Flo Fhi Lo Hi.
  rewrite FloatAxioms.leb_spec in Lo, Hi. unfold not_finite in *.
  destruct (Prim2SF w) as [s | s | | s m e]; try reflexivity.
  - destruct s.
    + destruct (Prim2SF lo) as [s' | s' | | s' m' e'];
        try discriminate; try (destruct s'; discriminate).
    + destruct (Prim2SF hi) as [s' | s' | | s' m' e'];
        try discriminate; try (destruct s'; discriminate).
  - destruct (Prim2SF lo) as [s' | s' | | s' m' e']; discriminate.
Qed.

(** ** At most one candidate matches on a table without repetitions *)

Lemma eqb_finite (u c : float) :
  is_finite c = true -> (u =? c)%float = true -> u = c.
Proof.
  unfold is_finite. intros Fin H. rewrite FloatAxioms.eqb_spec in H.
  destruct (Prim2SF c) as [ | | | s m e] eqn:E; try discriminate.
  apply Prim2SF_inj. rewrite E. exact (SFeqb_finite_eq _ _ _ _ H).
Qed.

Lemma separatedb_cons c t :
  separatedb (c :: t) = true ->
  separatedb t = true
  /\ forall c', In c' t -> is_finite c' = true /\ (c' =? c)%float = false.
Proof.
  simpl. intros H. apply andb_prop in H. destruct H as [Hc Ht].
  split; [exact Ht|]. intros c' Hin.
  rewrite forallb_forall in Hc. specialize (Hc c' Hin).
  apply andb_prop in Hc. destruct Hc as [Fin Ne].
  split; [exact Fin|]. now apply negb_true_iff.
Qed.

Lemma one_match (table : list float) :
  separatedb table = true ->
  forall u k,
    (matches_none u table /\ matching_from k u table = 0)
    \/ (exists i, (i < length table)%nat /\ matches_only u table i
                  /\ matching_from k u table = k + Z.of_nat i).
Proof.
  induction table as [|c t IH]; intros Sep u k.
  - left. split; [intros c [] | reflexivity].
  - destruct (separatedb_cons c t Sep) as [St Hc].
    destruct (u =? c)%float eqn:E.
    + right. exists 0%nat.
      assert (Hn : matches_none u t).
      { intros c' Hin. destruct (u =? c')%float eqn:E'; [|reflexivity].
        destruct (Hc c' Hin) as [Fin Ne].
        rewrite (eqb_finite u c' Fin E') in E. congruence. }
      split; [simpl; lia|]. split.
      * intros j Hj. destruct j as [|j]; simpl; [exact E|].
        apply Hn, nth_In. simpl in Hj. lia.
      * simpl. rewrite E, (matching_from_none u t (k + 1) Hn). lia.
    + destruct (IH St u (k + 1)) as [[Hn Hm] | (i & Hi & Ho & Hm)].
      * left. split.
        -- intros c' [<- | Hin]; [exact E | now apply Hn].
        -- simpl. now rewrite E, Hm.
      * right. exists (S i). split; [simpl; lia|]. split.
        -- intros j Hj. destruct j as [|j]; simpl; [exact E|].
           apply Ho. simpl in Hj. lia.
        -- simpl. rewrite E, Hm. lia.
Qed.

(** The sum of matching positions is a position of the table, and a
    position other than 0 is the one candidate the value equals. *)
Lemma sum_is_a_position (table : list float) (u : float) :
  (0 < length table)%nat -> separatedb table = true ->
  exists i, (i < length table)%nat
            /\ matching_from 0 u table = Z.of_nat i
            /\ (i <> 0%nat -> matches_only u table i).
Proof.
  intros Pos Sep.
  destruct (one_match table Sep u 0) as [[_ Hm] | (i & Hi & Ho & Hm)].
  - exists 0%nat. split; [exact Pos|]. split; [exact Hm|]. congruence.
  - exists i. split; [exact Hi|]. split; [rewrite Hm; lia|]. intros _. exact Ho.
Qed.

(** On such a table a candidate that matches is the sum, and the only
    match. *)
Lemma a_match_is_the_sum (table : list float) (u : float) (i : nat) :
  separatedb table = true -> (i < length table)%nat ->
  (u =? nth i table nan)%float = true ->
  matching_from 0 u table = Z.of_nat i /\ matches_only u table i.
Proof.
  intros Sep Hi E.
  destruct (one_match table Sep u 0) as [[Hn _] | (i' & Hi' & Ho & Hm)].
  - rewrite (Hn (nth i table nan)) in E by now apply nth_In.
    discriminate.
  - assert (i = i') as <-.
    { apply Nat.eqb_eq. rewrite <- (Ho i Hi). exact E. }
    split; [rewrite Hm; lia | exact Ho].
Qed.

(** ** Python indexing *)

Lemma py_index_nonneg {A : Type} (l : list A) (i : Z) (c : A) :
  0 <= i -> nth_error l (Z.to_nat i) = Some c -> py_index l i = Ok c.
Proof.
  intros Hi E. unfold py_index.
  assert (Hlt : (Z.to_nat i < length l)%nat)
    by (apply nth_error_Some; congruence).
  replace (i <? 0) with false by (symmetry; apply Z.ltb_ge; lia).
  replace (0 <=? i) with true by (symmetry; apply Z.leb_le; lia).
  replace (i <? Z.of_nat (length l)) with true
    by (symmetry; apply Z.ltb_lt; lia).
  simpl. now rewrite E.
Qed.

Lemma py_index_out {A : Type} (l : list A) (i : Z) :
  Z.of_nat (length l) <= i \/ i < - Z.of_nat (length l) ->
  py_index l i = Raise IndexError.
Proof.
  intros Hi. unfold py_index.
  destruct (i <? 0) eqn:Hneg.
  - apply Z.ltb_lt in Hneg.
    replace (0 <=? i + Z.of_nat (length l)) with false
      by (symmetry; apply Z.leb_gt; lia).
    reflexivity.
  - apply Z.ltb_ge in Hneg.
    replace (i <? Z.of_nat (length l)) with false
      by (symmetry; apply Z.ltb_ge; lia).
    now rewrite andb_false_r.
Qed.

Lemma py_index_in_range {A : Type} (l : list A) (i : Z) (dflt : A) :
  0 <= i < Z.of_nat (length l) ->
  py_index l i = Ok (nth (Z.to_nat i) l dflt).
Proof.
  intros Hi. apply py_index_nonneg; [lia|].
  apply nth_error_nth'. lia.
Qed.

(** A table exactly as long as the labels: the server's check leaves the
    method no index it cannot look up. *)
Lemma checked_write {A S : Type} (labels : list string) (table : list A)
    (commit : A -> S) :
  length table = length labels ->
  writes_within table
    (fun i => v <- check_enum labels i ;;
              (c <- py_index table v ;; Ok (commit c)))
    commit.
Proof.
  intros L i. unfold check_enum. cbv zeta. rewrite <- L. split.
  - intros Hi.
    replace ((i <? 0) || (Z.of_nat (length table) - 1 <? i)) with true;
      [reflexivity|].
    symmetry. apply orb_true_iff.
    destruct Hi; [left; apply Z.ltb_lt | right; apply Z.ltb_lt]; lia.
  - intros c Hi E.
    assert (Hlt : (Z.to_nat i < length table)%nat)
      by (apply nth_error_Some; congruence).
    replace ((i <? 0) || (Z.of_nat (length table) - 1 <? i)) with false
      by (symmetry; apply orb_false_iff; split; apply Z.ltb_ge; lia).
    now rewrite bind_Ok, (py_index_nonneg table i c Hi E).
Qed.

(** ** The bench instrument is a faithful link *)

Lemma bench_faithful tcs sens refs : Faithful (bench tcs sens refs).
Proof. constructor; reflexivity. Qed.

(** ** Every numeric enumerated read is a sum of matching positions *)

Section Reads.

Context {I : Instrument}.

Lemma read_timeconstant_sum (self : DSP7265 I) :
  length (TIME_CONSTANTS I) = 29%nat ->
  read_timeconstant self
  = Ok (matching_from 0 (1 * time_constant I (device self))%float
          (TIME_CONSTANTS I)).
Proof.
  intros L. unfold read_timeconstant. rewrite np_scale_ones.
  now apply index_of_matches_const.
Qed.

Lemma read_sensitivity_sum (self : DSP7265 I) :
  length (SENSITIVITIES I) = 28%nat ->
  read_sensitivity self
  = Ok (matching_from 0 (1 * sensitivity I (device self))%float
          (SENSITIVITIES I)).
Proof.
  intros L. unfold read_sensitivity. rewrite np_scale_ones.
  now apply index_of_matches_const.
Qed.

Lemma read_gain_sum (d : dev I) (g0 : float) (rest : list float) :
  gain I d = g0 :: rest ->
  read_gain (init_device d)
  = Ok (matching_from 0 (10 * g0)%float
          (map float_of_int (GAINS (init_device d)))).
Proof.
  intros G. unfold read_gain. simpl device. rewrite G.
  rewrite (py_index_nonneg (g0 :: rest) 0 g0) by (reflexivity || lia).
  rewrite bind_Ok, np_lscale_ones, np_scale_repeat.
  change (float_of_int 10 * 1)%float with 10%float.
  now apply index_of_matches_const.
Qed.

Lemma read_slope_sum (d : dev I) :
  read_slope (init_device d)
  = Ok (matching_from 0 (1 * slope I d)%float
          (map float_of_int (SLOPES (init_device d)))).
Proof.
  unfold read_slope. rewrite np_scale_ones.
  now apply index_of_matches_const.
Qed.

Lemma read_reference_unknown (self : DSP7265 I) :
  reference I (device self) <> "internal"%string ->
  reference I (device self) <> "external rear"%string ->
  reference I (device self) <> "external front"%string ->
  read_reference self = None.
Proof.
  intros H0 H1 H2. unfold read_reference.
  rewrite (proj2 (String.eqb_neq _ _) H0), (proj2 (String.eqb_neq _ _) H1),
    (proj2 (String.eqb_neq _ _) H2).
  reflexivity.
Qed.

End Reads.

(** ** Deciding matches on concrete tables *)

Ltac no_candidate :=
  let c := fresh "c" in
  let Hc := fresh "Hc" in
  intros c Hc; simpl in Hc;
  repeat (destruct Hc as [<- | Hc]; [reflexivity|]);
  destruct Hc.

Tactic Notation "by_position" integer(n) :=
  let j := fresh "j" in
  let Hj := fresh "Hj" in
  intros j Hj;
  do n (destruct j as [|j]; [reflexivity|]);
  exfalso; simpl in Hj; lia.

Ltac conjuncts := repeat match goal with |- _ /\ _ => split end.

(** * The enumerated reads *)

(** C1 (as amended).  For timeconstant, sensitivity, gain and slope, a raw
    device value that equals none of the candidates is read as index 0: the
    read returns normally, with the first enumerated option, and raises
    nothing.  For reference, a string that is none of the three names is
    read as [None].  (The tables of timeconstant and sensitivity come from
    the driver and are taken at the lengths the reads assume.) *)
Theorem unmatched_raw_reads_as_index_0 (I : Instrument) (d : dev I) :
  (length (TIME_CONSTANTS I) = 29%nat ->
   matches_none (1 * time_constant I d)%float (TIME_CONSTANTS I) ->
   read_timeconstant (init_device d) = Ok 0)
  /\ (length (SENSITIVITIES I) = 28%nat ->
      matches_none (1 * sensitivity I d)%float (SENSITIVITIES I) ->
      read_sensitivity (init_device d) = Ok 0)
  /\ (forall g0 rest, gain I d = g0 :: rest ->
      matches_none (10 * g0)%float (map float_of_int (GAINS (init_device d))) ->
      read_gain (init_device d) = Ok 0)
  /\ (matches_none (1 * slope I d)%float
        (map float_of_int (SLOPES (init_device d))) ->
      read_slope (init_device d) = Ok 0)
  /\ (reference I d <> "internal"%string ->
      reference I d <> "external rear"%string ->
      reference I d <> "external front"%string ->
      read_reference (init_device d) = None).
Proof.
  conjuncts.
  - intros L H. rewrite (read_timeconstant_sum _ L). f_equal.
    now apply matching_from_none.
  - intros L H. rewrite (read_sensitivity_sum _ L). f_equal.
    now apply matching_from_none.
  - intros g0 rest G H. rewrite (read_gain_sum d g0 rest G). f_equal.
    now apply matching_from_none.
  - intros H. rewrite read_slope_sum. f_equal.
    now apply matching_from_none.
  - apply (read_reference_unknown (init_device d)).
Qed.

Lemma unmatched_raw_reads_as_index_0_on_the_bench :
  read_timeconstant (init_device (I := nominal_bench) off_table) = Ok 0
  /\ read_sensitivity (init_device (I := nominal_bench) off_table) = Ok 0
  /\ read_gain (init_device (I := nominal_bench) off_table) = Ok 0
  /\ read_slope (init_device (I := nominal_bench) off_table) = Ok 0
  /\ read_reference (init_device (I := nominal_bench) (referring "EXT"))
     = None.
Proof.
  destruct (unmatched_raw_reads_as_index_0 nominal_bench off_table)
    as (Htc & Hsens & Hgain & Hslope & _).
  destruct (unmatched_raw_reads_as_index_0 nominal_bench (referring "EXT"))
    as (_ & _ & _ & _ & Href).
  conjuncts.
  - apply Htc; [reflexivity | no_candidate].
  - apply Hsens; [reflexivity | no_candidate].
  - apply (Hgain 3.5%float []); [reflexivity | no_candidate].
  - apply Hslope. no_candidate.
  - apply Href; discriminate.
Defined.

(** C1 as stated fails.  An AC gain reading of 35 dB is at least 5 dB away
    from every candidate, and [read_gain] returns index 0 all the same. *)
Lemma unmatched_gain_is_not_refused :
  forallb (fun c => (5 <=? abs (10 * 3.5 - c))%float)
    (map float_of_int (GAINS (init_device (I := nominal_bench) off_table)))
  = true
  /\ read_gain (init_device (I := nominal_bench) off_table) = Ok 0.
Proof. split; reflexivity. Qed.

(** C3 (as amended).  For timeconstant, sensitivity, gain and slope, a raw
    device value that is exactly equal (Python's [==]) to the candidate at
    position [i], and to no other candidate, is read as index [i].  No
    tolerance takes part in the comparison. *)
Theorem exact_match_reads_as_its_index (I : Instrument) (d : dev I) :
  (forall i, length (TIME_CONSTANTS I) = 29%nat -> (i < 29)%nat ->
   matches_only (1 * time_constant I d)%float (TIME_CONSTANTS I) i ->
   read_timeconstant (init_device d) = Ok (Z.of_nat i))
  /\ (forall i, length (SENSITIVITIES I) = 28%nat -> (i < 28)%nat ->
      matches_only (1 * sensitivity I d)%float (SENSITIVITIES I) i ->
      read_sensitivity (init_device d) = Ok (Z.of_nat i))
  /\ (forall i g0 rest, gain I d = g0 :: rest -> (i < 10)%nat ->
      matches_only (10 * g0)%float
        (map float_of_int (GAINS (init_device d))) i ->
      read_gain (init_device d) = Ok (Z.of_nat i))
  /\ (forall i, (i < 4)%nat ->
      matches_only (1 * slope I d)%float
        (map float_of_int (SLOPES (init_device d))) i ->
      read_slope (init_device d) = Ok (Z.of_nat i)).
Proof.
  conjuncts.
  - intros i L Hi H. rewrite (read_timeconstant_sum _ L). f_equal.
    rewrite (matching_from_only _ _ i 0); [lia | lia | exact H].
  - intros i L Hi H. rewrite (read_sensitivity_sum _ L). f_equal.
    rewrite (matching_from_only _ _ i 0); [lia | lia | exact H].
  - intros i g0 rest G Hi H. rewrite (read_gain_sum d g0 rest G). f_equal.
    rewrite (matching_from_only _ _ i 0); [lia | exact Hi | exact H].
  - intros i Hi H. rewrite read_slope_sum. f_equal.
    rewrite (matching_from_only _ _ i 0); [lia | exact Hi | exact H].
Qed.

Lemma exact_match_reads_as_its_index_on_the_bench :
  read_timeconstant (init_device (I := nominal_bench) settled) = Ok 7
  /\ read_sensitivity (init_device (I := nominal_bench) settled) = Ok 9
  /\ read_gain (init_device (I := nominal_bench) settled) = Ok 3
  /\ read_slope (init_device (I := nominal_bench) settled) = Ok 1.
Proof.
  destruct (exact_match_reads_as_its_index nominal_bench settled)
    as (Htc & Hsens & Hgain & Hslope).
  conjuncts.
  - apply (Htc 7%nat); [reflexivity | lia | by_position 29].
  - apply (Hsens 9%nat); [reflexivity | lia | by_position 28].
  - apply (Hgain 3%nat 3%float []); [reflexivity | lia | by_position 10].
  - apply (Hslope 1%nat); [lia | by_position 4].
Defined.

(** C3 as stated fails.  A slope reading of 12.000001 is within 1e-5 of
    candidate 1 (12 dB/octave), is not equal to it, is not within 1e-5 of
    candidate 0, and is read as index 0 rather than 1. *)
Lemma close_slope_is_not_resolved :
  (abs (12.000001 - 12) <=? 1e-5)%float = true
  /\ (12.000001 =? 12)%float = false
  /\ (abs (12.000001 - 6) <=? 1e-5)%float = false
  /\ read_slope (init_device (I := nominal_bench) drifted_slope) = Ok 0.
Proof. repeat split; reflexivity. Qed.



(** * Writing an enumerated attribute, and reading it back *)

(** C2.  For every enumerated attribute and every valid index [i], writing
    [i] and then reading returns [i].  The tables of timeconstant,
    sensitivity and reference are the driver's: they are taken at the
    lengths the reads assume, with candidates that read back as themselves
    and as no other candidate (the first may be a NaN, which reads back as
    no candidate and so as index 0), and with the three reference names the
    read knows.  The link is one that reports back what was set. *)
Theorem write_then_read_returns_the_index (I : Instrument) (F : Faithful I)
    (d : dev I) (i : Z) :
  (length (TIME_CONSTANTS I) = 29%nat -> reads_back (TIME_CONSTANTS I) ->
   0 <= i < 29 ->
   (s <- write_timeconstant (init_device d) i ;; read_timeconstant s) = Ok i)
  /\ (length (SENSITIVITIES I) = 28%nat -> reads_back (SENSITIVITIES I) ->
      0 <= i < 28 ->
      (s <- write_sensitivity (init_device d) i ;; read_sensitivity s) = Ok i)
  /\ (0 <= i < 10 ->
      (s <- write_gain (init_device d) i ;; read_gain s) = Ok i)
  /\ (0 <= i < 4 ->
      (s <- write_slope (init_device d) i ;; read_slope s) = Ok i)
  /\ (REFERENCES I = nominal_references -> 0 <= i < 3 ->
      (s <- write_reference (init_device d) i ;; Ok (read_reference s))
      = Ok (Some i)).
Proof.
  conjuncts.
  - intros L D Hi. unfold write_timeconstant.
    rewrite (py_index_in_range _ i nan) by lia. rewrite !bind_Ok.
    change (with_device (init_device d) ?d') with (init_device d').
    rewrite (read_timeconstant_sum _ L). simpl device.
    rewrite (time_constant_kept I F). f_equal.
    rewrite (reads_back_sum _ (Z.to_nat i) D); lia.
  - intros L D Hi. unfold write_sensitivity.
    rewrite (py_index_in_range _ i nan) by lia. rewrite !bind_Ok.
    change (with_device (init_device d) ?d') with (init_device d').
    rewrite (read_sensitivity_sum _ L). simpl device.
    rewrite (sensitivity_kept I F). f_equal.
    rewrite (reads_back_sum _ (Z.to_nat i) D); lia.
  - intros Hi.
    assert (C : i = 0 \/ i = 1 \/ i = 2 \/ i = 3 \/ i = 4 \/ i = 5 \/ i = 6
                \/ i = 7 \/ i = 8 \/ i = 9) by lia.
    repeat destruct C as [-> | C]; try subst i;
      (unfold write_gain; simpl GAINS; simpl device;
       erewrite (py_index_in_range _ _ 0) by (simpl; lia);
       rewrite !bind_Ok; simpl nth;
       change (with_device (init_device d) ?d') with (init_device d');
       erewrite read_gain_sum by apply (gain_kept I F); reflexivity).
  - intros Hi.
    assert (C : i = 0 \/ i = 1 \/ i = 2 \/ i = 3) by lia.
    repeat destruct C as [-> | C]; try subst i;
      (unfold write_slope; simpl SLOPES; simpl device;
       erewrite (py_index_in_range _ _ 0) by (simpl; lia);
       rewrite !bind_Ok; simpl nth;
       change (with_device (init_device d) ?d') with (init_device d');
       rewrite read_slope_sum, (slope_kept I F); reflexivity).
  - intros R Hi. unfold write_reference. rewrite R.
    assert (C : i = 0 \/ i = 1 \/ i = 2) by lia.
    repeat destruct C as [-> | C]; try subst i;
      (erewrite (py_index_in_range _ _ EmptyString) by (simpl; lia);
       rewrite !bind_Ok; simpl nth; unfold read_reference;
       simpl device; rewrite (reference_kept I F); reflexivity).
Qed.

Lemma write_then_read_returns_the_index_on_the_bench :
  (s <- write_timeconstant (init_device (I := nominal_bench) idle) 7 ;;
   read_timeconstant s) = Ok 7
  /\ (s <- write_sensitivity (init_device (I := nominal_bench) idle) 7 ;;
      read_sensitivity s) = Ok 7
  /\ (s <- write_sensitivity (init_device (I := nominal_bench) idle) 0 ;;
      read_sensitivity s) = Ok 0
  /\ (s <- write_gain (init_device (I := nominal_bench) idle) 7 ;;
      read_gain s) = Ok 7
  /\ (s <- write_slope (init_device (I := nominal_bench) idle) 2 ;;
      read_slope s) = Ok 2
  /\ (s <- write_reference (init_device (I := nominal_bench) idle) 2 ;;
      Ok (read_reference s)) = Ok (Some 2).
Proof.
  pose proof (bench_faithful nominal_time_constants nominal_sensitivities
                nominal_references) as F.
  destruct (write_then_read_returns_the_index nominal_bench F idle 7)
    as (Htc & Hsens & Hgain & _ & _).
  destruct (write_then_read_returns_the_index nominal_bench F idle 0)
    as (_ & Hnan & _).
  destruct (write_then_read_returns_the_index nominal_bench F idle 2)
    as (_ & _ & _ & Hslope & Href).
  conjuncts.
  - apply Htc; [reflexivity | now apply reads_backb_sound | lia].
  - apply Hsens; [reflexivity | now apply reads_backb_sound | lia].
  - apply Hnan; [reflexivity | now apply reads_backb_sound | lia].
  - apply Hgain. lia.
  - apply Hslope. lia.
  - apply Href; [reflexivity | lia].
Defined.



(** C9.  Writing gain index 3 sets the driver's gain to 30 (dB), and a
    read of gain that follows returns index 3. *)
Theorem gain_index_3_is_30_dB (I : Instrument) (F : Faithful I) (d : dev I) :
  write_gain (init_device d) 3
  = Ok (with_device (init_device d) (set_gain I 30 d))
  /\ (s <- write_gain (init_device d) 3 ;; read_gain s) = Ok 3.
Proof.
  assert (W : write_gain (init_device d) 3
              = Ok (with_device (init_device d) (set_gain I 30 d)))
    by reflexivity.
  split; [exact W|]. rewrite W, bind_Ok.
  change (with_device (init_device d) ?d') with (init_device d').
  erewrite read_gain_sum by apply (gain_kept I F). reflexivity.
Qed.

Lemma gain_index_3_is_30_dB_on_the_bench :
  write_gain (init_device (I := nominal_bench) idle) 3
  = Ok (with_device (init_device (I := nominal_bench) idle)
         (set_gain nominal_bench 30 idle))
  /\ (s <- write_gain (init_device (I := nominal_bench) idle) 3 ;;
      read_gain s) = Ok 3.
Proof.
  exact (gain_index_3_is_30_dB nominal_bench
           (bench_faithful nominal_time_constants nominal_sensitivities
              nominal_references) idle).
Defined.

(** * Booleans, scaled channels, the frequency, the reference *)

(** C6.  ACcoupling and ground read as true exactly when the raw flag is
    the float 1.0: 0.0, 0.5 and every other value read as false.  A write
    of true sets the flag to 1.0 and a write of false sets it to 0.0, so a
    read after a write returns the value written. *)
Theorem boolean_flags_read_exactly_one (I : Instrument) (F : Faithful I)
    (self : DSP7265 I) (b : bool) :
  (read_ACcoupling self = true <-> coupling I (device self) = 1%float)
  /\ (coupling I (device self) = 0%float -> read_ACcoupling self = false)
  /\ (coupling I (device self) = 0.5%float -> read_ACcoupling self = false)
  /\ coupling I (device (write_ACcoupling self b))
     = (if b then 1%float else 0%float)
  /\ read_ACcoupling (write_ACcoupling self b) = b
  /\ (read_ground self = true <-> ground I (device self) = 1%float)
  /\ (ground I (device self) = 0%float -> read_ground self = false)
  /\ (ground I (device self) = 0.5%float -> read_ground self = false)
  /\ ground I (device (write_ground self b))
     = (if b then 1%float else 0%float)
  /\ read_ground (write_ground self b) = b.
Proof.
  assert (Wc : coupling I (device (write_ACcoupling self b))
               = if b then 1%float else 0%float)
    by (destruct b; simpl; now rewrite (coupling_kept I F)).
  assert (Wg : ground I (device (write_ground self b))
               = if b then 1%float else 0%float)
    by (destruct b; simpl; now rewrite (ground_kept I F)).
  conjuncts.
  - unfold read_ACcoupling. rewrite <- eqb_one.
    now destruct (coupling I (device self) =? 1)%float.
  - unfold read_ACcoupling. now intros ->.
  - unfold read_ACcoupling. now intros ->.
  - exact Wc.
  - unfold read_ACcoupling. rewrite Wc. now destruct b.
  - unfold read_ground. rewrite <- eqb_one.
    now destruct (ground I (device self) =? 1)%float.
  - unfold read_ground. now intros ->.
  - unfold read_ground. now intros ->.
  - exact Wg.
  - unfold read_ground. rewrite Wg. now destruct b.
Qed.

Lemma boolean_flags_read_exactly_one_on_the_bench :
  read_ACcoupling (init_device (I := nominal_bench) settled) = true
  /\ read_ACcoupling (init_device (I := nominal_bench) idle) = false
  /\ read_ACcoupling (init_device (I := nominal_bench) half_way) = false
  /\ read_ACcoupling
       (write_ACcoupling (init_device (I := nominal_bench) idle) true) = true
  /\ read_ground
       (write_ground (init_device (I := nominal_bench) half_way) false)
     = false.
Proof.
  pose proof (bench_faithful nominal_time_constants nominal_sensitivities
                nominal_references) as F.
  destruct (boolean_flags_read_exactly_one nominal_bench F
              (init_device (I := nominal_bench) settled) true)
    as (Hone & _).
  destruct (boolean_flags_read_exactly_one nominal_bench F
              (init_device (I := nominal_bench) idle) true)
    as (_ & Hzero & _ & _ & Hback & _).
  destruct (boolean_flags_read_exactly_one nominal_bench F
              (init_device (I := nominal_bench) half_way) false)
    as (_ & _ & Hhalf & _ & _ & _ & _ & _ & _ & Hground).
  conjuncts.
  - apply Hone. reflexivity.
  - apply Hzero. reflexivity.
  - apply Hhalf. reflexivity.
  - exact Hback.
  - exact Hground.
Defined.

(** C7.  X, Y and R read as the raw channel multiplied by the scale 1e9
    (the product [10**9 * raw]); a raw magnitude of 1e-9 volts makes R read
    exactly 1.0. *)
Theorem scaled_channels_read_in_nanovolts (I : Instrument)
    (self : DSP7265 I) :
  read_x self = (1e9 * x I (device self))%float
  /\ read_y self = (1e9 * y I (device self))%float
  /\ read_R self = (1e9 * mag I (device self))%float
  /\ (mag I (device self) = 1e-9%float -> read_R self = 1%float).
Proof.
  conjuncts; try reflexivity.
  unfold read_R. now intros ->.
Qed.

Lemma scaled_channels_read_in_nanovolts_on_the_bench :
  read_R (init_device (I := nominal_bench) one_nanovolt) = 1%float.
Proof.
  destruct (scaled_channels_read_in_nanovolts nominal_bench
              (init_device (I := nominal_bench) one_nanovolt))
    as (_ & _ & _ & Hnano).
  apply Hnano. reflexivity.
Defined.

(** C8 (as amended).  [frequency] is a [DevFloat]: the value written is
    first rounded to binary32.  The write is refused (API_WAttrOutsideLimit)
    when the rounded value is not finite, is below 0.001 as a binary32 or
    is above 250000, as for 300000; for a rounded value from the one limit
    to the other, both included, the write goes through, [read_frequency]
    then returns the rounded value, and the client reads its binary32
    rounding; 1000 is read back as 1000. *)
Theorem frequency_is_rounded_and_held_to_its_limits (I : Instrument)
    (F : Faithful I) (self : DSP7265 I) (v : float) :
  (not_finite (to_DevFloat v) = true
   \/ (to_DevFloat v <? to_DevFloat 0.001)%float = true
   \/ (250000 <? to_DevFloat v)%float = true ->
   write_attribute_frequency self v = Raise WAttrOutsideLimit)
  /\ ((to_DevFloat 0.001 <=? to_DevFloat v)%float = true
      /\ (to_DevFloat v <=? 250000)%float = true ->
      (s <- write_attribute_frequency self v ;; Ok (read_frequency s))
      = Ok (to_DevFloat v)
      /\ (s <- write_attribute_frequency self v ;;
          Ok (read_attribute_frequency s))
         = Ok (to_DevFloat (to_DevFloat v)))
  /\ write_attribute_frequency self 300000 = Raise WAttrOutsideLimit
  /\ (s <- write_attribute_frequency self 1000 ;;
      Ok (read_attribute_frequency s)) = Ok 1000%float.
Proof.
  assert (Max : to_DevFloat (max_value frequency_attr) = 250000%float)
    by (vm_compute; reflexivity).
  assert (In_bounds : forall w,
            (to_DevFloat 0.001 <=? w)%float = true
            /\ (w <=? 250000)%float = true ->
            check_limits frequency_attr w = Ok w).
  { intros w [Lo Hi]. unfold check_limits. rewrite Max.
    change (min_value frequency_attr) with 0.001%float.
    rewrite (between_finite_is_finite (to_DevFloat 0.001) 250000 w)
      by (reflexivity || assumption).
    now rewrite (leb_not_gt _ _ Lo), (leb_not_gt _ _ Hi). }
  assert (Out_of_bounds : forall w,
            not_finite w = true
            \/ (w <? to_DevFloat 0.001)%float = true
            \/ (250000 <? w)%float = true ->
            check_limits frequency_attr w = Raise WAttrOutsideLimit).
  { intros w H. unfold check_limits. rewrite Max.
    change (min_value frequency_attr) with 0.001%float.
    destruct (not_finite w); [reflexivity|].
    destruct H as [H | [-> | ->]]; [discriminate | reflexivity |].
    now destruct (w <? to_DevFloat 0.001)%float. }
  conjuncts.
  - intros H. unfold write_attribute_frequency.
    now rewrite (Out_of_bounds _ H).
  - intros H. unfold write_attribute_frequency.
    rewrite (In_bounds _ H), !bind_Ok.
    unfold read_attribute_frequency, read_frequency. simpl device.
    now rewrite (frequency_kept I F).
  - unfold write_attribute_frequency. rewrite Out_of_bounds; [reflexivity|].
    right. right. vm_compute. reflexivity.
  - unfold write_attribute_frequency.
    rewrite In_bounds by (split; vm_compute; reflexivity).
    rewrite !bind_Ok. unfold read_attribute_frequency, read_frequency. simpl.
    rewrite (frequency_kept I F). vm_compute. reflexivity.
Qed.

Lemma frequency_is_rounded_and_held_to_its_limits_on_the_bench :
  write_attribute_frequency (init_device (I := nominal_bench) idle) 300000
  = Raise WAttrOutsideLimit
  /\ write_attribute_frequency (init_device (I := nominal_bench) idle) 0.0005
     = Raise WAttrOutsideLimit
  /\ write_attribute_frequency (init_device (I := nominal_bench) idle) nan
     = Raise WAttrOutsideLimit
  /\ (s <- write_attribute_frequency
             (init_device (I := nominal_bench) idle) 0.1 ;;
      Ok (read_frequency s)) = Ok 0.10000000149011612%float.
Proof.
  pose proof (bench_faithful nominal_time_constants nominal_sensitivities
                nominal_references) as F.
  destruct (frequency_is_rounded_and_held_to_its_limits nominal_bench F
              (init_device (I := nominal_bench) idle) 300000)
    as (Habove & _).
  destruct (frequency_is_rounded_and_held_to_its_limits nominal_bench F
              (init_device (I := nominal_bench) idle) 0.0005)
    as (Hbelow & _).
  destruct (frequency_is_rounded_and_held_to_its_limits nominal_bench F
              (init_device (I := nominal_bench) idle) nan)
    as (Hnan & _).
  destruct (frequency_is_rounded_and_held_to_its_limits nominal_bench F
              (init_device (I := nominal_bench) idle) 0.1)
    as (_ & Hwithin & _).
  conjuncts.
  - apply Habove. right. right. vm_compute. reflexivity.
  - apply Hbelow. right. left. vm_compute. reflexivity.
  - apply Hnan. left. vm_compute. reflexivity.
  - apply Hwithin. split; vm_compute; reflexivity.
Defined.

(** C8 as stated fails.  250000.001 is above the upper limit, and a write
    of it is accepted: it rounds to the binary32 250000.  The value read
    back is 250000, not the value written. *)
Lemma frequency_above_the_limit_is_accepted :
  (250000 <? 250000.001)%float = true
  /\ (s <- write_attribute_frequency
             (init_device (I := nominal_bench) idle) 250000.001 ;;
      Ok (read_attribute_frequency s)) = Ok 250000%float
  /\ (250000 =? 250000.001)%float = false.
Proof. repeat split; vm_compute; reflexivity. Qed.

(** C10.  A read of reference returns 0, 1 or 2 when the device reports
    'internal', 'external rear' or 'external front', and returns [None],
    neither an index nor an error, when it reports any other string. *)
Theorem reference_reads_three_names (I : Instrument) (self : DSP7265 I) :
  (reference I (device self) = "internal"%string ->
   read_reference self = Some 0)
  /\ (reference I (device self) = "external rear"%string ->
      read_reference self = Some 1)
  /\ (reference I (device self) = "external front"%string ->
      read_reference self = Some 2)
  /\ (reference I (device self) <> "internal"%string ->
      reference I (device self) <> "external rear"%string ->
      reference I (device self) <> "external front"%string ->
      read_reference self = None).
Proof.
  unfold read_reference. conjuncts.
  - now intros ->.
  - now intros ->.
  - now intros ->.
  - apply read_reference_unknown.
Qed.

Lemma reference_reads_three_names_on_the_bench :
  read_reference (init_device (I := nominal_bench) (referring "internal"))
  = Some 0
  /\ read_reference
       (init_device (I := nominal_bench) (referring "external rear"))
     = Some 1
  /\ read_reference
       (init_device (I := nominal_bench) (referring "external front"))
     = Some 2
  /\ read_reference (init_device (I := nominal_bench) (referring "EXT"))
     = None.
Proof.
  destruct (reference_reads_three_names nominal_bench
              (init_device (I := nominal_bench) (referring "internal")))
    as (Hint & _).
  destruct (reference_reads_three_names nominal_bench
              (init_device (I := nominal_bench) (referring "external rear")))
    as (_ & Hrear & _).
  destruct (reference_reads_three_names nominal_bench
              (init_device (I := nominal_bench) (referring "external front")))
    as (_ & _ & Hfront & _).
  destruct (reference_reads_three_names nominal_bench
              (init_device (I := nominal_bench) (referring "EXT")))
    as (_ & _ & _ & Hother).
  conjuncts.
  - apply Hint. reflexivity.
  - apply Hrear. reflexivity.
  - apply Hfront. reflexivity.
  - apply Hother; discriminate.
Defined.

(** * Further properties of the adapter *)

(** X1.  Whatever the driver reports, a read of slope returns an index from
    0 to 3 and a read of gain (of a non-empty gain sequence) an index from
    0 to 9; an index other than 0 is returned only for a raw value that
    equals that candidate and no other. *)
Theorem gain_and_slope_read_in_range (I : Instrument) (d : dev I) :
  (exists i, (i < 4)%nat
     /\ read_slope (init_device d) = Ok (Z.of_nat i)
     /\ (i <> 0%nat ->
         matches_only (1 * slope I d)%float
           (map float_of_int (SLOPES (init_device d))) i))
  /\ (forall g0 rest, gain I d = g0 :: rest ->
      exists i, (i < 10)%nat
        /\ read_gain (init_device d) = Ok (Z.of_nat i)
        /\ (i <> 0%nat ->
            matches_only (10 * g0)%float
              (map float_of_int (GAINS (init_device d))) i)).
Proof.
  split.
  - destruct (sum_is_a_position (map float_of_int (SLOPES (init_device d)))
                (1 * slope I d)%float) as (i & Hi & Hm & Ho);
      [simpl; lia | reflexivity |].
    exists i. split; [exact Hi|]. split; [|exact Ho].
    rewrite read_slope_sum. now rewrite Hm.
  - intros g0 rest G.
    destruct (sum_is_a_position (map float_of_int (GAINS (init_device d)))
                (10 * g0)%float) as (i & Hi & Hm & Ho);
      [simpl; lia | reflexivity |].
    exists i. split; [exact Hi|]. split; [|exact Ho].
    rewrite (read_gain_sum d g0 rest G). now rewrite Hm.
Qed.

Lemma gain_and_slope_read_in_range_on_the_bench :
  exists i, (i < 10)%nat
    /\ read_gain (init_device (I := nominal_bench) off_table)
       = Ok (Z.of_nat i)
    /\ (i <> 0%nat ->
        matches_only (10 * 3.5)%float
          (map float_of_int
             (GAINS (init_device (I := nominal_bench) off_table))) i).
Proof.
  destruct (gain_and_slope_read_in_range nominal_bench off_table)
    as (_ & Hgain).
  apply (Hgain 3.5%float []). reflexivity.
Defined.

(** X2.  When the driver's table has the length the read assumes and lists
    no candidate twice, a read of timeconstant returns an index from 0 to
    28 and a read of sensitivity an index from 0 to 27, whatever the raw
    value; an index other than 0 is returned only for a raw value that
    equals that candidate and no other. *)
Theorem timeconstant_and_sensitivity_read_in_range (I : Instrument)
    (d : dev I) :
  (length (TIME_CONSTANTS I) = 29%nat ->
   separatedb (TIME_CONSTANTS I) = true ->
   exists i, (i < 29)%nat
     /\ read_timeconstant (init_device d) = Ok (Z.of_nat i)
     /\ (i <> 0%nat ->
         matches_only (1 * time_constant I d)%float (TIME_CONSTANTS I) i))
  /\ (length (SENSITIVITIES I) = 28%nat ->
      separatedb (SENSITIVITIES I) = true ->
      exists i, (i < 28)%nat
        /\ read_sensitivity (init_device d) = Ok (Z.of_nat i)
        /\ (i <> 0%nat ->
            matches_only (1 * sensitivity I d)%float (SENSITIVITIES I) i)).
Proof.
  split.
  - intros L S.
    destruct (sum_is_a_position (TIME_CONSTANTS I)
                (1 * time_constant I d)%float) as (i & Hi & Hm & Ho);
      [lia | exact S |].
    exists i. split; [lia|]. split; [|exact Ho].
    rewrite (read_timeconstant_sum _ L). simpl device. now rewrite Hm.
  - intros L S.
    destruct (sum_is_a_position (SENSITIVITIES I)
                (1 * sensitivity I d)%float) as (i & Hi & Hm & Ho);
      [lia | exact S |].
    exists i. split; [lia|]. split; [|exact Ho].
    rewrite (read_sensitivity_sum _ L). simpl device. now rewrite Hm.
Qed.

Lemma timeconstant_and_sensitivity_read_in_range_on_the_bench :
  (exists i, (i < 29)%nat
     /\ read_timeconstant (init_device (I := nominal_bench) off_table)
        = Ok (Z.of_nat i)
     /\ (i <> 0%nat ->
         matches_only (1 * 15e-6)%float nominal_time_constants i))
  /\ (exists i, (i < 28)%nat
        /\ read_sensitivity (init_device (I := nominal_bench) settled)
           = Ok (Z.of_nat i)
        /\ (i <> 0%nat ->
            matches_only (1 * 1e-6)%float nominal_sensitivities i)).
Proof.
  destruct (timeconstant_and_sensitivity_read_in_range nominal_bench
              off_table) as (Htc & _).
  destruct (timeconstant_and_sensitivity_read_in_range nominal_bench
              settled) as (_ & Hsens).
  split.
  - apply Htc; reflexivity.
  - apply Hsens; reflexivity.
Defined.

(** ** Round trips, restated for reuse *)

Lemma with_device_init {I : Instrument} (d d' : dev I) :
  with_device (init_device d) d' = init_device d'.
Proof. reflexivity. Qed.

Lemma timeconstant_round_trip (I : Instrument) (F : Faithful I) (d : dev I)
    (i : Z) :
  length (TIME_CONSTANTS I) = 29%nat -> distinguishable (TIME_CONSTANTS I) ->
  0 <= i < 29 ->
  (s <- write_timeconstant (init_device d) i ;; read_timeconstant s) = Ok i.
Proof.
  intros L D Hi. unfold write_timeconstant.
  rewrite (py_index_in_range _ i nan) by lia.
  rewrite !bind_Ok, with_device_init, (read_timeconstant_sum _ L).
  simpl device. rewrite (time_constant_kept I F). f_equal.
  rewrite (matching_from_only _ _ (Z.to_nat i) 0); [lia | lia |].
  apply D. lia.
Qed.

Lemma sensitivity_round_trip (I : Instrument) (F : Faithful I) (d : dev I)
    (i : Z) :
  length (SENSITIVITIES I) = 28%nat -> distinguishable (SENSITIVITIES I) ->
  0 <= i < 28 ->
  (s <- write_sensitivity (init_device d) i ;; read_sensitivity s) = Ok i.
Proof.
  intros L D Hi. unfold write_sensitivity.
  rewrite (py_index_in_range _ i nan) by lia.
  rewrite !bind_Ok, with_device_init, (read_sensitivity_sum _ L).
  simpl device. rewrite (sensitivity_kept I F). f_equal.
  rewrite (matching_from_only _ _ (Z.to_nat i) 0); [lia | lia |].
  apply D. lia.
Qed.

Lemma gain_round_trip (I : Instrument) (F : Faithful I) (d : dev I) (i : Z) :
  0 <= i < 10 ->
  (s <- write_gain (init_device d) i ;; read_gain s) = Ok i.
Proof.
  intros Hi. unfold write_gain. simpl GAINS. simpl device.
  rewrite (py_index_in_range _ i 0) by (simpl; lia).
  rewrite !bind_Ok, with_device_init.
  erewrite read_gain_sum by apply (gain_kept I F).
  assert (C : i = 0 \/ i = 1 \/ i = 2 \/ i = 3 \/ i = 4 \/ i = 5 \/ i = 6
              \/ i = 7 \/ i = 8 \/ i = 9) by lia.
  repeat destruct C as [-> | C]; try subst i; reflexivity.
Qed.

Lemma slope_round_trip (I : Instrument) (F : Faithful I) (d : dev I) (i : Z) :
  0 <= i < 4 ->
  (s <- write_slope (init_device d) i ;; read_slope s) = Ok i.
Proof.
  intros Hi. unfold write_slope. simpl SLOPES. simpl device.
  rewrite (py_index_in_range _ i 0) by (simpl; lia).
  rewrite !bind_Ok, with_device_init, read_slope_sum, (slope_kept I F).
  assert (C : i = 0 \/ i = 1 \/ i = 2 \/ i = 3) by lia.
  repeat destruct C as [-> | C]; try subst i; reflexivity.
Qed.



(** ** When a read raises *)

Lemma index_of_matches_mismatch (n : nat) (u : float) (table : list float) :
  (2 <= n)%nat -> length table <> n -> length table <> 1%nat ->
  index_of_matches n (repeat u n) table = Raise ValueError.
Proof.
  intros Hn Ln L1. unfold index_of_matches, broadcast2.
  rewrite repeat_length.
  destruct (Nat.eqb n (length table)) eqn:E;
    [apply Nat.eqb_eq in E; congruence|].
  destruct n as [|[|n]]; try lia. simpl repeat.
  destruct table as [|c [|c' t]]; simpl in *; try reflexivity; congruence.
Qed.

Lemma masked_constant (b : bool) (n k : nat) :
  np_sum (zip_with (fun (i : Z) (m : bool) => i * Z.b2z m)
            (map Z.of_nat (seq k n)) (repeat b n))
  = if b then np_sum (map Z.of_nat (seq k n)) else 0.
Proof.
  revert k. induction n as [|n IH]; intros k; simpl.
  - now destruct b.
  - rewrite IH. destruct b; simpl; lia.
Qed.

Lemma broadcast2_stretch {A B C : Type} (f : A -> B -> C) a (y : B) :
  length a <> 1%nat -> broadcast2 f a [y] = Ok (map (fun x => f x y) a).
Proof.
  intros L. unfold broadcast2.
  destruct a as [|x [|x' a]]; simpl in *; [reflexivity | lia | reflexivity].
Qed.

(** A table of one entry is stretched over the whole array: every position
    matches, or none does. *)
Lemma index_of_matches_single (n : nat) (u c : float) :
  (2 <= n)%nat ->
  index_of_matches n (repeat u n) [c]
  = Ok (if (u =? c)%float then np_sum (np_arange n) else 0).
Proof.
  intros Hn. unfold index_of_matches.
  rewrite broadcast2_stretch by (rewrite repeat_length; lia).
  rewrite bind_Ok, map_repeat.
  rewrite broadcast2_same_shape
    by now rewrite np_arange_length, repeat_length.
  rewrite bind_Ok. unfold np_arange. now rewrite masked_constant.
Qed.

(** X5.  A read of timeconstant raises exactly when the driver's table has
    neither 29 entries nor 1, and then it is numpy's [ValueError]; with a
    table of one entry it returns 406 (the sum of 0 .. 28) when the raw
    value equals the entry and 0 otherwise.  The same holds for sensitivity
    with 28 entries and 378.  A read of gain raises exactly when the driver
    reports an empty gain sequence, and then it is [IndexError]. *)
Theorem reads_raise_on_shape_only (I : Instrument) (d : dev I) :
  (read_timeconstant (init_device d) = Raise ValueError
   <-> length (TIME_CONSTANTS I) <> 29%nat
       /\ length (TIME_CONSTANTS I) <> 1%nat)
  /\ (forall e, read_timeconstant (init_device d) = Raise e -> e = ValueError)
  /\ (forall c, TIME_CONSTANTS I = [c] ->
      read_timeconstant (init_device d)
      = Ok (if (1 * time_constant I d =? c)%float then 406 else 0))
  /\ (read_sensitivity (init_device d) = Raise ValueError
      <-> length (SENSITIVITIES I) <> 28%nat
          /\ length (SENSITIVITIES I) <> 1%nat)
  /\ (forall e, read_sensitivity (init_device d) = Raise e -> e = ValueError)
  /\ (forall c, SENSITIVITIES I = [c] ->
      read_sensitivity (init_device d)
      = Ok (if (1 * sensitivity I d =? c)%float then 378 else 0))
  /\ (read_gain (init_device d) = Raise IndexError <-> gain I d = [])
  /\ (forall e, read_gain (init_device d) = Raise e -> e = IndexError).
Proof.
  assert (Tc : forall c, TIME_CONSTANTS I = [c] ->
            read_timeconstant (init_device d)
            = Ok (if (1 * time_constant I d =? c)%float then 406 else 0)).
  { intros c E. unfold read_timeconstant. rewrite np_scale_ones, E.
    now rewrite index_of_matches_single by lia. }
  assert (Se : forall c, SENSITIVITIES I = [c] ->
            read_sensitivity (init_device d)
            = Ok (if (1 * sensitivity I d =? c)%float then 378 else 0)).
  { intros c E. unfold read_sensitivity. rewrite np_scale_ones, E.
    now rewrite index_of_matches_single by lia. }
  assert (Tcases : length (TIME_CONSTANTS I) = 29%nat
                   \/ (exists c, TIME_CONSTANTS I = [c])
                   \/ (length (TIME_CONSTANTS I) <> 29%nat
                       /\ length (TIME_CONSTANTS I) <> 1%nat)).
  { destruct (Nat.eq_dec (length (TIME_CONSTANTS I)) 29); [now left|].
    destruct (TIME_CONSTANTS I) as [|c [|c' t]] eqn:E; simpl in *.
    - right. right. lia.
    - right. left. now exists c.
    - right. right. lia. }
  assert (Scases : length (SENSITIVITIES I) = 28%nat
                   \/ (exists c, SENSITIVITIES I = [c])
                   \/ (length (SENSITIVITIES I) <> 28%nat
                       /\ length (SENSITIVITIES I) <> 1%nat)).
  { destruct (Nat.eq_dec (length (SENSITIVITIES I)) 28); [now left|].
    destruct (SENSITIVITIES I) as [|c [|c' t]] eqn:E; simpl in *.
    - right. right. lia.
    - right. left. now exists c.
    - right. right. lia. }
  assert (Tbad : length (TIME_CONSTANTS I) <> 29%nat ->
                 length (TIME_CONSTANTS I) <> 1%nat ->
                 read_timeconstant (init_device d) = Raise ValueError).
  { intros L L1. unfold read_timeconstant. rewrite np_scale_ones.
    now apply index_of_matches_mismatch; [lia | |]. }
  assert (Sbad : length (SENSITIVITIES I) <> 28%nat ->
                 length (SENSITIVITIES I) <> 1%nat ->
                 read_sensitivity (init_device d) = Raise ValueError).
  { intros L L1. unfold read_sensitivity. rewrite np_scale_ones.
    now apply index_of_matches_mismatch; [lia | |]. }
  conjuncts.
  - destruct Tcases as [L | [(c & E) | (L & L1)]].
    + rewrite (read_timeconstant_sum _ L). split; [discriminate | lia].
    + rewrite (Tc c E). split; [discriminate | rewrite E; simpl; lia].
    + now rewrite (Tbad L L1).
  - intros e. destruct Tcases as [L | [(c & E) | (L & L1)]].
    + rewrite (read_timeconstant_sum _ L). discriminate.
    + rewrite (Tc c E). discriminate.
    + rewrite (Tbad L L1). congruence.
  - exact Tc.
  - destruct Scases as [L | [(c & E) | (L & L1)]].
    + rewrite (read_sensitivity_sum _ L). split; [discriminate | lia].
    + rewrite (Se c E). split; [discriminate | rewrite E; simpl; lia].
    + now rewrite (Sbad L L1).
  - intros e. destruct Scases as [L | [(c & E) | (L & L1)]].
    + rewrite (read_sensitivity_sum _ L). discriminate.
    + rewrite (Se c E). discriminate.
    + rewrite (Sbad L L1). congruence.
  - exact Se.
  - destruct (gain I d) as [|g0 rest] eqn:G.
    + unfold read_gain. simpl device. rewrite G.
      rewrite (py_index_out (@nil float) 0) by (simpl; lia). now split.
    + rewrite (read_gain_sum d g0 rest G). split; discriminate.
  - intros e. destruct (gain I d) as [|g0 rest] eqn:G.
    + unfold read_gain. simpl device. rewrite G.
      rewrite (py_index_out (@nil float) 0) by (simpl; lia).
      simpl. congruence.
    + rewrite (read_gain_sum d g0 rest G). discriminate.
Qed.

Lemma reads_raise_on_shape_only_on_the_bench :
  read_timeconstant
    (init_device (I := bench [5e-3%float] nominal_sensitivities
                          nominal_references) settled)
  = Ok 406
  /\ read_timeconstant
       (init_device (I := bench [5e-3%float; 10e-3%float]
                             nominal_sensitivities nominal_references)
          settled)
     = Raise ValueError.
Proof.
  destruct (reads_raise_on_shape_only
              (bench [5e-3%float] nominal_sensitivities nominal_references)
              settled) as (_ & _ & Hone & _).
  destruct (reads_raise_on_shape_only
              (bench [5e-3%float; 10e-3%float] nominal_sensitivities
                 nominal_references) settled) as (Hbad & _).
  split.
  - exact (Hone 5e-3%float eq_refl).
  - apply Hbad. split; discriminate.
Defined.

(** ** States reached by write requests *)

Lemma serve_keeps_tables {I : Instrument} (self : DSP7265 I) (r : request) :
  SLOPES (serve self r) = SLOPES self /\ GAINS (serve self r) = GAINS self.
Proof.
  unfold serve.
  destruct r as [v | v | v | v | v | v | [] | []]; simpl;
    try (split; reflexivity).
  - unfold write_timeconstant.
    destruct (py_index (TIME_CONSTANTS I) v); simpl; split; reflexivity.
  - unfold write_sensitivity.
    destruct (py_index (SENSITIVITIES I) v); simpl; split; reflexivity.
  - unfold write_gain.
    destruct (py_index (GAINS self) v); simpl; split; reflexivity.
  - unfold write_slope.
    destruct (py_index (SLOPES self) v); simpl; split; reflexivity.
  - unfold write_reference.
    destruct (py_index (REFERENCES I) v); simpl; split; reflexivity.
Qed.

Lemma serve_all_keeps_tables {I : Instrument} (rs : list request)
    (self : DSP7265 I) :
  SLOPES (serve_all rs self) = SLOPES self
  /\ GAINS (serve_all rs self) = GAINS self.
Proof.
  unfold serve_all. revert self.
  induction rs as [|r rs IH]; intros self; simpl; [split; reflexivity|].
  destruct (IH (serve self r)) as [Hs Hg].
  destruct (serve_keeps_tables self r) as [Hs' Hg'].
  split; congruence.
Qed.

Lemma reached_state_is_initialised {I : Instrument} (rs : list request)
    (d : dev I) :
  serve_all rs (init_device d)
  = init_device (device (serve_all rs (init_device d))).
Proof.
  destruct (serve_all_keeps_tables rs (init_device d)) as [Hs Hg].
  destruct (serve_all rs (init_device d)) as [d' sl ga]. simpl in *.
  now subst.
Qed.

(** X6.  No sequence of write requests, accepted or refused, changes the
    tables [SLOPES] and [GAINS] that [init_device] created. *)
Theorem tables_survive_every_request (I : Instrument) (rs : list request)
    (d : dev I) :
  SLOPES (serve_all rs (init_device d)) = [6; 12; 18; 24]
  /\ GAINS (serve_all rs (init_device d))
     = [0; 10; 20; 30; 40; 50; 60; 70; 80; 90].
Proof. exact (serve_all_keeps_tables rs (init_device d)). Qed.

(** X7.  In every state reached from [init_device] by any sequence of
    write requests, writing a valid index and reading returns that index:
    for gain and slope on any link that reports back what was set, for
    timeconstant and sensitivity on driver tables of the assumed length with
    pairwise distinguishable candidates. *)
Theorem round_trip_in_every_reached_state (I : Instrument) (F : Faithful I)
    (d : dev I) (rs : list request) (i : Z) :
  (0 <= i < 10 ->
   (s <- write_gain (serve_all rs (init_device d)) i ;; read_gain s) = Ok i)
  /\ (0 <= i < 4 ->
      (s <- write_slope (serve_all rs (init_device d)) i ;; read_slope s)
      = Ok i)
  /\ (length (TIME_CONSTANTS I) = 29%nat ->
      distinguishable (TIME_CONSTANTS I) -> 0 <= i < 29 ->
      (s <- write_timeconstant (serve_all rs (init_device d)) i ;;
       read_timeconstant s) = Ok i)
  /\ (length (SENSITIVITIES I) = 28%nat ->
      distinguishable (SENSITIVITIES I) -> 0 <= i < 28 ->
      (s <- write_sensitivity (serve_all rs (init_device d)) i ;;
       read_sensitivity s) = Ok i).
Proof.
  rewrite (reached_state_is_initialised rs d).
  generalize (device (serve_all rs (init_device d))). intros d'.
  conjuncts.
  - now apply gain_round_trip.
  - now apply slope_round_trip.
  - intros L D Hi. now apply timeconstant_round_trip.
  - intros L D Hi. now apply sensitivity_round_trip.
Qed.

Lemma round_trip_in_every_reached_state_on_the_bench :
  (s <- write_gain
          (serve_all [Write_gain 12; Write_slope 2; Write_frequency 300000;
                      Write_ACcoupling true; Write_gain 5]
             (init_device (I := nominal_bench) idle)) 3 ;;
   read_gain s) = Ok 3
  /\ (s <- write_timeconstant
             (serve_all [Write_timeconstant 30; Write_timeconstant 4;
                         Write_reference 1]
                (init_device (I := nominal_bench) idle)) 7 ;;
      read_timeconstant s) = Ok 7.
Proof.
  pose proof (bench_faithful nominal_time_constants nominal_sensitivities
                nominal_references) as F.
  destruct (round_trip_in_every_reached_state nominal_bench F idle
              [Write_gain 12; Write_slope 2; Write_frequency 300000;
               Write_ACcoupling true; Write_gain 5] 3) as (Hgain & _).
  destruct (round_trip_in_every_reached_state nominal_bench F idle
              [Write_timeconstant 30; Write_timeconstant 4;
               Write_reference 1] 7) as (_ & _ & Htc & _).
  split.
  - apply Hgain. lia.
  - apply Htc; [reflexivity | now apply distinguishableb_sound | lia].
Defined.
